(** * verify_fix.py: a shallow embedding of the browser verification stub

    The module [src/verify_fix.py] imports [asyncio] and Playwright's
    [async_playwright], defines an async routine [run] that opens a headless
    Chromium page, sizes its viewport and registers an init script mocking
    local storage, and guards a single [print] with
    [if __name__ == "__main__"].

    Effects are modelled as an event trace threaded through a small state
    monad: every library call, every write to standard output and every name
    binding of the module top level appends one event.  Library handles
    (the Playwright driver, browsers, pages) are numbers drawn from a fresh
    counter.  Library calls are modelled as succeeding. *)

From Stdlib Require Import String Ascii List ZArith Bool Lia.
Import ListNotations.
Open Scope string_scope.

Module VerifyFix.

(** ** Events *)

(** The actions a Python script of this kind can perform: module-level
    bindings, calls of its own functions, Playwright calls, standard output,
    and the file, environment, command-line and assertion operations a
    verification script would use. *)
Inductive event : Type :=
| EImport (modname : string)
| EDef (fname : string)
| ECall (fname : string)
| EPlaywrightStart (p : nat)
| EPlaywrightStop (p : nat)
| ELaunch (p : nat) (engine : string) (headless : bool) (b : nat)
| ENewPage (b : nat) (pg : nat)
| ESetViewport (pg : nat) (width height : Z)
| EAddInitScript (pg : nat) (script : string)
| EGoto (pg : nat) (url : string)
| EScreenshot (pg : nat)
| ECompareRendering (pg : nat)
| EAssert (cond : bool)
| EPrint (line : string)
| EOpenFile (path : string)
| EGetEnv (var : string)
| EParseArgs
| EPersist (key : string).

(** ** The trace monad *)

Record world : Type := mkWorld { trace : list event; fresh : nat }.

Definition M (A : Type) : Type := world -> A * world.

Definition ret {A} (a : A) : M A := fun w => (a, w).

Definition bind {A B} (m : M A) (f : A -> M B) : M B :=
  fun w => let (a, w') := m w in f a w'.

Notation "x <- m ;; k" := (bind m (fun x => k))
  (at level 61, m at next level, right associativity).
Notation "m ;;; k" := (bind m (fun _ => k))
  (at level 61, right associativity).

Definition emit (e : event) : M unit :=
  fun w => (tt, mkWorld (trace w ++ [e]) (fresh w)).

Definition alloc : M nat :=
  fun w => (fresh w, mkWorld (trace w) (S (fresh w))).

(** [pass] *)
Definition pass : M unit := ret tt.

(** [print(s)] *)
Definition print (s : string) : M unit := emit (EPrint s).

(** ** Playwright calls *)

(** [async with async_playwright() as p: body]: the driver is started on
    entry and stopped on exit of the block. *)
Definition async_with_playwright (body : nat -> M unit) : M unit :=
  p <- alloc ;;
  emit (EPlaywrightStart p) ;;;
  body p ;;;
  emit (EPlaywrightStop p).

(** [await p.<engine>.launch(headless=...)] *)
Definition launch (p : nat) (engine : string) (headless : bool) : M nat :=
  b <- alloc ;;
  emit (ELaunch p engine headless b) ;;;
  ret b.

(** [await browser.new_page()] *)
Definition new_page (b : nat) : M nat :=
  pg <- alloc ;;
  emit (ENewPage b pg) ;;;
  ret pg.

(** [await page.set_viewport_size({"width": w, "height": h})] *)
Definition set_viewport_size (pg : nat) (width height : Z) : M unit :=
  emit (ESetViewport pg width height).

(** [await page.add_init_script(script)] *)
Definition add_init_script (pg : nat) (script : string) : M unit :=
  emit (EAddInitScript pg script).

(** ** The literals of the source *)

Definition nl : string := String (ascii_of_nat 10) EmptyString.
Definition dq : string := String (ascii_of_nat 34) EmptyString.

Fixpoint join_lines (ls : list string) : string :=
  match ls with
  | [] => EmptyString
  | [l] => l
  | l :: ls' => l ++ nl ++ join_lines ls'
  end.

(** The triple-quoted init script of lines 13-24, line by line. *)
Definition init_script : string :=
  join_lines
    [ "";
      "            localStorage.setItem('gemini_api_key', 'test_key');";
      "            localStorage.setItem('mangaGen_autosave', JSON.stringify({";
      "                storyboard: {";
      "                    title: " ++ dq ++ "Test Story" ++ dq ++ ",";
      "                    panels: [";
      "                        {id: 1, layout: {x: 0, y: 0, width: 300, height: 300}, status: 'completed', imageUrl: 'https://via.placeholder.com/600x600'},";
      "                        {id: 2, layout: {x: 324, y: 0, width: 300, height: 300}, status: 'completed', imageUrl: 'https://via.placeholder.com/600x600'}";
      "                    ]";
      "                }";
      "            }));";
      "        " ].

Definition navigating_msg : string := "Navigating to app...".

Definition skip_msg : string :=
  "Skipping runtime verification due to environment constraints. Proceeding with static verification.".

(** ** [run] (lines 4-32)

    [run_with script] is [run] with the init script as a parameter, so that
    the injected storyboard can be varied; [run] is its instance at the
    literal of the source. *)
Definition run_with (script : string) : M unit :=
  async_with_playwright (fun p =>
    browser <- launch p "chromium" true ;;
    page <- new_page browser ;;
    set_viewport_size page 1280 800 ;;;
    add_init_script page script ;;;
    print navigating_msg ;;;
    pass).

Definition run : M unit := run_with init_script.

(** ** The module top level (lines 1-4 and 34-39) *)
Definition module_body (__name__ : string) : M unit :=
  emit (EImport "asyncio") ;;;
  emit (EImport "playwright.async_api.async_playwright") ;;;
  emit (EDef "run") ;;;
  if String.eqb __name__ "__main__" then print skip_msg else pass.

Definition init_world : world := mkWorld [] 0.

(** The trace of running the module under a given [__name__]. *)
Definition exec_module (__name__ : string) : list event :=
  trace (snd (module_body __name__ init_world)).

(** The events an action appends to the trace of a world. *)
Definition emitted {A} (m : M A) (w : world) : list event :=
  skipn (length (trace w)) (trace (snd (m w))).

(** ** Observations *)

Fixpoint stdout (t : list event) : list string :=
  match t with
  | [] => []
  | EPrint s :: t' => s :: stdout t'
  | _ :: t' => stdout t'
  end.

(** The kind of effect of an event on the world outside the interpreter. *)
Inductive effect : Type :=
| NameBinding | StdoutWrite | LibraryCall | FileAccess | EnvRead | ArgvRead
| PersistedState | NoOutsideEffect.

Definition effect_of (e : event) : effect :=
  match e with
  | EImport _ | EDef _ => NameBinding
  | ECall _ | EAssert _ => NoOutsideEffect
  | EPlaywrightStart _ | EPlaywrightStop _ | ELaunch _ _ _ _ | ENewPage _ _
  | ESetViewport _ _ _ | EAddInitScript _ _ | EGoto _ _ | EScreenshot _
  | ECompareRendering _ => LibraryCall
  | EPrint _ => StdoutWrite
  | EOpenFile _ => FileAccess
  | EGetEnv _ => EnvRead
  | EParseArgs => ArgvRead
  | EPersist _ => PersistedState
  end.

Fixpoint substring_of (pat s : string) : bool :=
  match s with
  | EmptyString => String.prefix pat s
  | String _ s' => String.prefix pat s || substring_of pat s'
  end.

(** ** Resources held by the script

    Playwright's semantics, as far as the resources of [run] go: starting
    the driver, launching a browser and opening a page each acquire a
    resource; stopping the driver (the exit of [async with
    async_playwright()]) terminates the browser processes it launched and
    with them their pages. *)
Inductive resource : Type :=
| RDriver (p : nat)
| RBrowser (p b : nat)
| RPage (b pg : nat).

Definition owned_browsers (p : nat) (hs : list resource) : list nat :=
  flat_map (fun r => match r with
                     | RBrowser p' b => if Nat.eqb p' p then [b] else []
                     | _ => []
                     end) hs.

Definition released_by (p : nat) (bs : list nat) (r : resource) : bool :=
  match r with
  | RDriver p' => Nat.eqb p' p
  | RBrowser p' _ => Nat.eqb p' p
  | RPage b _ => existsb (Nat.eqb b) bs
  end.

Definition resource_step (hs : list resource) (e : event) : list resource :=
  match e with
  | EPlaywrightStart p => RDriver p :: hs
  | ELaunch p _ _ b => RBrowser p b :: hs
  | ENewPage b pg => RPage b pg :: hs
  | EPlaywrightStop p =>
      filter (fun r => negb (released_by p (owned_browsers p hs) r)) hs
  | _ => hs
  end.

Definition held (hs : list resource) (t : list event) : list resource :=
  fold_left resource_step t hs.

(** Actions that check the application under test. *)
Definition is_check_action (e : event) : bool :=
  match e with
  | EGoto _ _ | EAssert _ | ECompareRendering _ => true
  | _ => false
  end.

(** The order of events the spec's first sentence describes for a run of
    the script: a headless Chromium launch, then an init script injection,
    then the skip message. *)
Definition launch_inject_then_skip (t : list event) : Prop :=
  exists t1 t2 t3 t4 p b pg s,
    t = (t1 ++ [ELaunch p "chromium" true b] ++ t2 ++ [EAddInitScript pg s]
           ++ t3 ++ [EPrint skip_msg] ++ t4)%list.

(** The events of [run_with script] started with fresh counter [n]. *)
Definition run_events (script : string) (n : nat) : list event :=
  [ EPlaywrightStart n;
    ELaunch n "chromium" true (S n);
    ENewPage (S n) (S (S n));
    ESetViewport (S (S n)) 1280 800;
    EAddInitScript (S (S n)) script;
    EPrint navigating_msg;
    EPlaywrightStop n ].

(** Every handle of a resource is below [n], as for the resources of a
    world whose fresh counter is [n]. *)
Definition handles_below (n : nat) (r : resource) : Prop :=
  match r with
  | RDriver p => p < n
  | RBrowser p b => p < n /\ b < n
  | RPage b pg => b < n /\ pg < n
  end.




(** A caller awaiting [run] [k] times in a row
    ([for _ in range(k): await run()]). *)
Fixpoint run_times (k : nat) : M unit :=
  match k with
  | 0 => pass
  | S k' => run ;;; run_times k'
  end.

Fixpoint run_times_events (k n : nat) : list event :=
  match k with
  | 0 => []
  | S k' => (run_events init_script n ++ run_times_events k' (n + 3))%list
  end.

(** ** Lemmas on the embedding *)

Lemma run_with_world (script : string) (w : world) :
  snd (run_with script w) =
  mkWorld (trace w ++ run_events script (fresh w))%list (S (S (S (fresh w)))).
Proof.
  destruct w as [t n]. cbn.
  repeat rewrite <- app_assoc. reflexivity.
Qed.

Lemma emitted_run_with (script : string) (w : world) :
  emitted (run_with script) w = run_events script (fresh w).
Proof.
  unfold emitted. rewrite run_with_world. cbn.
  rewrite skipn_app, skipn_all, Nat.sub_diag. reflexivity.
Qed.

Lemma exec_module_main :
  exec_module "__main__" =
  [ EImport "asyncio"; EImport "playwright.async_api.async_playwright";
    EDef "run"; EPrint skip_msg ].
Proof. reflexivity. Qed.

Lemma exec_module_not_main (name : string) :
  name <> "__main__" ->
  exec_module name =
  [ EImport "asyncio"; EImport "playwright.async_api.async_playwright";
    EDef "run" ].
Proof.
  intros Hn. unfold exec_module, module_body. cbn.
  destruct (String.eqb_spec name "__main__") as [E | _];
    [contradiction | reflexivity].
Qed.

Lemma exec_module_cases (name : string) :
  exec_module name = exec_module "__main__" \/
  exec_module name =
  [ EImport "asyncio"; EImport "playwright.async_api.async_playwright";
    EDef "run" ].
Proof.
  destruct (String.eqb_spec name "__main__") as [-> | Hn].
  - left. reflexivity.
  - right. apply exec_module_not_main. exact Hn.
Qed.

(** ** Claims *)

(** C1 (counterexample): run as [__main__], the script does not launch a
    browser and inject the init script before printing the skip message:
    its trace has no launch at all. *)
Lemma main_no_launch_before_skip :
  ~ launch_inject_then_skip (exec_module "__main__").
Proof.
  rewrite exec_module_main. intros (t1 & t2 & t3 & t4 & p & b & pg & s & E).
  assert (Hin : In (ELaunch p "chromium" true b) (exec_module "__main__")).
  { rewrite exec_module_main, E. apply in_or_app. right. left. reflexivity. }
  rewrite exec_module_main in Hin. cbn in Hin.
  repeat destruct Hin as [Hin | Hin]; discriminate || contradiction.
Qed.

(** C1 (amended): run as [__main__], the script binds its imports and
    [run], then prints the skip message; no browser is launched and no
    init script is injected. *)
Lemma main_prints_skip_only :
  exec_module "__main__" =
  [ EImport "asyncio"; EImport "playwright.async_api.async_playwright";
    EDef "run"; EPrint skip_msg ] /\
  (forall p e h b, ~ In (ELaunch p e h b) (exec_module "__main__")) /\
  (forall pg s, ~ In (EAddInitScript pg s) (exec_module "__main__")).
Proof.
  rewrite exec_module_main.
  split; [reflexivity | split]; intros *; cbn;
    intros H; repeat destruct H as [H | H]; discriminate || contradiction.
Qed.

(** C2: the [__main__] guard never calls [run]: the trace of the script run
    as [__main__] has no call of [run] and none of the effects of [run]
    (browser launch, viewport sizing, init script, the navigation print). *)
Theorem main_never_runs :
  let t := exec_module "__main__" in
  ~ In (ECall "run") t /\
  (forall p e h b, ~ In (ELaunch p e h b) t) /\
  (forall pg w h, ~ In (ESetViewport pg w h) t) /\
  (forall pg s, ~ In (EAddInitScript pg s) t) /\
  ~ In (EPrint navigating_msg) t.
Proof.
  cbv zeta. rewrite exec_module_main.
  repeat split; intros *; cbn; intros H;
    repeat destruct H as [H | H]; discriminate || contradiction.
Qed.

(** C3: run as a program the script writes exactly the skip line to
    standard output, and every other event of its run is a name binding
    (no library call, no other output). *)
Theorem main_stdout_skip_line :
  stdout (exec_module "__main__") = [skip_msg] /\
  forall e, In e (exec_module "__main__") ->
    e = EPrint skip_msg \/ effect_of e = NameBinding.
Proof.
  rewrite exec_module_main. split; [reflexivity |].
  intros e H; cbn in H.
  repeat destruct H as [H | H]; subst; cbn; auto; contradiction.
Qed.

(** C4: the content of the injected script does not influence [run]: for
    any two scripts, the two runs agree on every event before and after the
    injection, on the standard output and on the final counter. *)
Theorem injected_script_is_dead_data (s1 s2 : string) (w : world) :
  exists pre post pg,
    emitted (run_with s1) w = (pre ++ EAddInitScript pg s1 :: post)%list /\
    emitted (run_with s2) w = (pre ++ EAddInitScript pg s2 :: post)%list /\
    stdout (emitted (run_with s1) w) = stdout (emitted (run_with s2) w) /\
    fresh (snd (run_with s1 w)) = fresh (snd (run_with s2 w)) /\
    fst (run_with s1 w) = fst (run_with s2 w).
Proof.
  rewrite !emitted_run_with, !run_with_world.
  set (n := fresh w).
  exists [ EPlaywrightStart n; ELaunch n "chromium" true (S n);
           ENewPage (S n) (S (S n)); ESetViewport (S (S n)) 1280 800 ],
         [ EPrint navigating_msg; EPlaywrightStop n ], (S (S n)).
  repeat split; reflexivity.
Qed.

(** C5: [run] is a finite, loop-free sequence: from any world it appends
    exactly seven events and draws three handles; and the script, run under
    any [__name__], never invokes it. *)
Theorem run_terminates_or_not_invoked :
  (forall w, length (emitted run w) = 7 /\
             fresh (snd (run w)) = fresh w + 3) /\
  (forall name, ~ In (ECall "run") (exec_module name) /\
                forall p e h b, ~ In (ELaunch p e h b) (exec_module name)).
Proof.
  split.
  - intros w. unfold run. rewrite emitted_run_with, run_with_world.
    cbn. split; [reflexivity | lia].
  - intros name.
    destruct (exec_module_cases name) as [E | E]; rewrite E;
      [rewrite exec_module_main |];
      (split; [| intros *]); cbn; intros H;
      repeat destruct H as [H | H]; discriminate || contradiction.
Qed.

(** C6: [run] acquires the Playwright driver, a browser and a page inside
    its [async with] block, and after it returns every resource still held
    was already held before it started. *)
Theorem run_releases_resources (w : world) (hs : list resource) :
  let t := emitted run w in
  (exists p b pg,
      In (RDriver p) (held hs (firstn 3 t)) /\
      In (RBrowser p b) (held hs (firstn 3 t)) /\
      In (RPage b pg) (held hs (firstn 3 t))) /\
  (forall r, In r (held hs t) -> In r hs).
Proof.
  cbv zeta. unfold run. rewrite emitted_run_with. set (n := fresh w).
  split.
  - exists n, (S n), (S (S n)). cbn. tauto.
  - intros r H. cbn in H. rewrite Nat.eqb_refl in H. cbn in H.
    rewrite !Nat.eqb_refl in H. cbn in H.
    apply filter_In in H. tauto.
Qed.

(** C7: no execution navigates, asserts or compares renderings: neither
    the module run under any [__name__] nor [run] (with any init script,
    from any world) emits a check action. *)
Theorem no_check_actions :
  (forall name e, In e (exec_module name) -> is_check_action e = false) /\
  (forall script w e,
      In e (emitted (run_with script) w) -> is_check_action e = false).
Proof.
  split.
  - intros name e.
    destruct (exec_module_cases name) as [E | E]; rewrite E;
      [rewrite exec_module_main |]; cbn; intros H;
      repeat destruct H as [H | H]; subst; reflexivity || contradiction.
  - intros script w e. rewrite emitted_run_with. cbn. intros H.
    repeat destruct H as [H | H]; subst; reflexivity || contradiction.
Qed.

(** C8: every event of every execution is a write to standard output, a
    Playwright call or a name binding of the module top level: no file
    access, no environment or command-line read, no persisted state. *)
Theorem only_stdout_and_library_effects :
  (forall name e, In e (exec_module name) ->
     effect_of e = StdoutWrite \/ effect_of e = LibraryCall \/
     effect_of e = NameBinding) /\
  (forall script w e, In e (emitted (run_with script) w) ->
     effect_of e = StdoutWrite \/ effect_of e = LibraryCall \/
     effect_of e = NameBinding).
Proof.
  split.
  - intros name e.
    destruct (exec_module_cases name) as [E | E]; rewrite E;
      [rewrite exec_module_main |]; cbn; intros H;
      repeat destruct H as [H | H]; subst; cbn; auto; contradiction.
  - intros script w e. rewrite emitted_run_with. cbn. intros H.
    repeat destruct H as [H | H]; subst; cbn; auto; contradiction.
Qed.

(** C9: imported under any name other than [__main__], the module only
    binds its imports and [run]: nothing is printed and no library call is
    made. *)
Theorem import_is_silent (name : string) :
  name <> "__main__" ->
  exec_module name =
  [ EImport "asyncio"; EImport "playwright.async_api.async_playwright";
    EDef "run" ] /\
  stdout (exec_module name) = [] /\
  (forall e, In e (exec_module name) -> effect_of e = NameBinding).
Proof.
  intros Hn. rewrite (exec_module_not_main name Hn).
  split; [reflexivity | split; [reflexivity |]].
  intros e H; cbn in H.
  repeat destruct H as [H | H]; subst; reflexivity || contradiction.
Qed.

Lemma import_is_silent_witness :
  "verify_fix" <> "__main__" /\ stdout (exec_module "verify_fix") = [].
Proof.
  split; [discriminate |].
  pose proof (import_is_silent "verify_fix" ltac:(discriminate)) as [_ [H _]].
  exact H.
Defined.

(** C10: [run] starts the driver, launches headless Chromium, opens a
    page, sets the viewport to 1280x800, adds the init script (which sets
    ['gemini_api_key'] and ['mangaGen_autosave']), prints
    ["Navigating to app..."] as its only output, and then only leaves its
    [async with] block, stopping the driver. *)
Theorem run_step_order (w : world) :
  let n := fresh w in
  emitted run w =
  [ EPlaywrightStart n;
    ELaunch n "chromium" true (S n);
    ENewPage (S n) (S (S n));
    ESetViewport (S (S n)) 1280 800;
    EAddInitScript (S (S n)) init_script;
    EPrint navigating_msg;
    EPlaywrightStop n ] /\
  substring_of "localStorage.setItem('gemini_api_key'" init_script = true /\
  substring_of "localStorage.setItem('mangaGen_autosave'" init_script = true /\
  stdout (emitted run w) = ["Navigating to app..."].
Proof.
  cbv zeta. unfold run. rewrite emitted_run_with.
  split; [reflexivity |].
  split; [vm_compute; reflexivity |].
  split; [vm_compute; reflexivity | reflexivity].
Qed.

(** ** Further properties of [run] *)

Lemma filter_keep {A} (f : A -> bool) (l : list A) :
  (forall x, In x l -> f x = true) -> filter f l = l.
Proof.
  induction l as [| x l IH]; intros H; cbn; [reflexivity |].
  rewrite (H x (or_introl eq_refl)), IH; [reflexivity |].
  intros y Hy. apply H. right. exact Hy.
Qed.

Lemma owned_browsers_below (n : nat) (hs : list resource) :
  (forall r, In r hs -> handles_below n r) -> owned_browsers n hs = [].
Proof.
  induction hs as [| r hs IH]; intros H; [reflexivity |].
  unfold owned_browsers in *. cbn [flat_map].
  rewrite IH by (intros r' Hr'; apply H; right; exact Hr').
  specialize (H r (or_introl eq_refl)).
  destruct r as [p | p b | b pg]; cbn in *; try reflexivity.
  destruct (Nat.eqb_spec p n); [lia | reflexivity].
Qed.

Lemma held_run_events_frame (script : string) (n : nat) (hs : list resource) :
  (forall r, In r hs -> handles_below n r) ->
  held hs (run_events script n) = hs.
Proof.
  intros H. unfold held, run_events. cbn [fold_left resource_step].
  cbn [owned_browsers flat_map]. rewrite Nat.eqb_refl.
  pose proof (owned_browsers_below n hs H) as Ho. unfold owned_browsers in Ho.
  rewrite Ho. cbn.
  rewrite !Nat.eqb_refl. cbn.
  apply filter_keep. intros r Hr. specialize (H r Hr).
  destruct r as [p | p b | b pg]; cbn in *.
  - destruct (Nat.eqb_spec p n); [lia | reflexivity].
  - destruct (Nat.eqb_spec p n); [lia | reflexivity].
  - destruct (Nat.eqb_spec b (S n)); [lia | reflexivity].
Qed.

Lemma handles_below_mono (n m : nat) (r : resource) :
  n <= m -> handles_below n r -> handles_below m r.
Proof. destruct r; cbn; lia. Qed.

Lemma run_times_world (k : nat) (w : world) :
  snd (run_times k w) =
  mkWorld (trace w ++ run_times_events k (fresh w))%list (fresh w + 3 * k).
Proof.
  revert w. induction k as [| k IH]; intros w.
  - destruct w as [t n]. cbn. rewrite app_nil_r, Nat.add_0_r. reflexivity.
  - cbn [run_times]. unfold bind at 1.
    pose proof (run_with_world init_script w) as Hw. unfold run.
    destruct (run_with init_script w) as [[] w1]. cbn in Hw. subst w1.
    rewrite IH. cbn [trace fresh run_times_events]. rewrite <- app_assoc.
    replace (fresh w + 3) with (S (S (S (fresh w)))) by lia.
    f_equal. lia.
Qed.

Lemma stdout_app (t1 t2 : list event) :
  stdout (t1 ++ t2)%list = (stdout t1 ++ stdout t2)%list.
Proof.
  induction t1 as [| e t1 IH]; [reflexivity |].
  destruct e; cbn; rewrite ?IH; reflexivity.
Qed.

Lemma held_app (hs : list resource) (t1 t2 : list event) :
  held hs (t1 ++ t2)%list = held (held hs t1) t2.
Proof. unfold held. apply fold_left_app. Qed.

(** [run], from any world, leaves the resources already held untouched,
    provided their handles were drawn before it (below the fresh
    counter). *)
Theorem run_preserves_prior_resources (script : string) (w : world)
    (hs : list resource) :
  (forall r, In r hs -> handles_below (fresh w) r) ->
  held hs (emitted (run_with script) w) = hs.
Proof.
  intros H. rewrite emitted_run_with. apply held_run_events_frame. exact H.
Qed.

Lemma run_preserves_prior_resources_witness :
  held [RDriver 0; RBrowser 0 1; RPage 1 2]
       (emitted (run_with init_script) (mkWorld [] 3))
  = [RDriver 0; RBrowser 0 1; RPage 1 2].
Proof.
  apply run_preserves_prior_resources.
  intros r Hr. cbn in Hr.
  repeat destruct Hr as [<- | Hr]; cbn; try lia; contradiction.
Defined.

(** Awaiting [run] [k] times in a row prints ["Navigating to app..."]
    [k] times and nothing else, draws [3 * k] handles, and leaves the
    resources held before (handles below the fresh counter) exactly as
    they were: repeated runs leak no driver, browser or page. *)
Theorem repeated_runs_leak_nothing (k : nat) (w : world) (hs : list resource) :
  (forall r, In r hs -> handles_below (fresh w) r) ->
  stdout (emitted (run_times k) w) = repeat navigating_msg k /\
  held hs (emitted (run_times k) w) = hs /\
  fresh (snd (run_times k w)) = fresh w + 3 * k.
Proof.
  intros H. unfold emitted. rewrite run_times_world. cbn [trace fresh].
  rewrite skipn_app, skipn_all, Nat.sub_diag. cbn [app skipn].
  split; [| split; [| reflexivity]].
  - generalize (fresh w). clear H.
    induction k as [| k IH]; intros n; [reflexivity |].
    cbn [run_times_events]. rewrite stdout_app, IH. reflexivity.
  - generalize (fresh w) H. clear H.
    induction k as [| k IH]; intros n H; [reflexivity |].
    cbn [run_times_events]. rewrite held_app, held_run_events_frame by exact H.
    apply IH. intros r Hr. apply (handles_below_mono n); [lia | auto].
Qed.

Lemma repeated_runs_leak_nothing_witness :
  stdout (emitted (run_times 2) (mkWorld [] 1)) =
    [navigating_msg; navigating_msg] /\
  held [RDriver 0] (emitted (run_times 2) (mkWorld [] 1)) = [RDriver 0] /\
  fresh (snd (run_times 2 (mkWorld [] 1))) = 7.
Proof.
  apply (repeated_runs_leak_nothing 2 (mkWorld [] 1) [RDriver 0]).
  intros r Hr. cbn in Hr.
  destruct Hr as [<- | []]. cbn. lia.
Defined.







End VerifyFix.
